(** * napalm_ng.base: the driver contract and its scoped session manager

    A shallow embedding of [BaseNetworkDriver] (src/napalm_ng/base.py).

    - A Python class is a table of methods; a concrete driver is a table
      that replaces some entries of the base table and inherits the others.
    - A method is a function on the session state of the instance that
      returns the new state together with a normal result or a raised
      exception.
    - [__enter__], [__exit__] and [__raise_clean_exception] are written once,
      on top of the table, because they call [self.open()] and
      [self.close()] through dynamic dispatch.
    - What the session manager does to the outside world (the methods it
      calls, the protected block it lets run, the text it prints) is kept in
      an event log, in order. *)

From Stdlib Require Import Ascii.
From stdpp Require Import base strings list gmap.

Open Scope string_scope.

(** ** Python values and exceptions *)

Module Py.

(** A class, as far as exception handling looks at it: its [__name__], the
    module that defines it (two classes of the same name in two modules are
    different classes), and whether it derives from [Exception] (classes such
    as [KeyboardInterrupt] derive from [BaseException] only, and
    [except Exception] lets them through). *)
Record pyclass := PyClass {
  cls_name : string;
  cls_module : string;
  cls_is_Exception : bool
}.

(** An exception object: its class, its payload ([args]) and the exception
    that was being handled when it was raised ([__context__], Python 3).
    The traceback, which the interpreter extends while the exception travels,
    is left out.  An object is represented by its content: "the same object"
    reads as equality of the record. *)
#[warnings="-register-all"]
Inductive exc := Exc {
  exc_type : pyclass;
  exc_args : list string;
  exc_context : option exc
}.

(** What a call produces. *)
Inductive outcome (A : Type) :=
| Return (a : A)
| Raise (e : exc).
Arguments Return {A} a.
Arguments Raise {A} e.

(** Values of keyword arguments and of results. *)
Inductive pyvalue :=
| PyNone
| PyBool (b : bool)
| PyInt (z : Z)
| PyStr (s : string)
| PyDict (items : list (string * string)).

#[global] Instance pyclass_eq_dec : EqDecision pyclass.
Proof. solve_decision. Defined.


(** [raise C] with a class instantiates it without arguments. *)
Definition instantiate (c : pyclass) : exc :=
  {| exc_type := c; exc_args := []; exc_context := None |}.

(** The builtin [NotImplementedError] (a [RuntimeError], hence an
    [Exception]). *)
Definition NotImplementedError : pyclass :=
  {| cls_name := "NotImplementedError"; cls_module := "builtins";
     cls_is_Exception := true |}.

(** Python 3 chains implicitly: an exception raised while another one is
    being handled gets that one as [__context__].  A method of a driver is
    described by the exception it raises as the method sets it up: a new
    object, with the chain of the exceptions the method itself caught on the
    way to the [raise], if any.  When the call is made while [h] is being
    handled, the first of these was raised under [h], so [h] is where the
    chain of the method goes on: [chained_to h c] is [c] with [h] after the
    last exception of its chain. *)
Fixpoint chained_to (h c : exc) : exc :=
  match c with
  | Exc t a ctx =>
      Exc t a (Some match ctx with
                    | None => h
                    | Some c' => chained_to h c'
                    end)
  end.

(** What leaves a call that raises [c], when the call is made while
    [handled] is being handled ([None]: outside of any handler). *)
Definition raised_while_handling (handled : option exc) (c : exc) : exc :=
  match handled with
  | None => c
  | Some h => chained_to h c
  end.

End Py.

(** ** The driver contract *)

Module Base.
Import Py.

(** The names the session manager looks a class name up in.  Neither is
    written in base.py: [dir(exceptions)] is the list of attribute names of
    the module [napalm_ng.exceptions], and [__builtins__.keys()] the names of
    the interpreter's builtins ([__builtins__] is their dictionary in a
    module that is imported, as base.py is).  Both are parameters of the
    model. *)
Record namespaces := Namespaces {
  exceptions_dir : list string;
  builtins_keys : list string
}.

Section Contract.

(** The state of one driver instance: whatever a concrete driver keeps on
    [self].  The base class keeps nothing there. *)
Context {St : Type}.

(** A method body: from the instance to the instance and a result. *)
Definition meth (A : Type) : Type := St -> St * outcome A.

Definition raise_class {A} (c : pyclass) : meth A :=
  fun self => (self, Raise (instantiate c)).

(** The method table of a driver class. *)
Record driver := Driver {
  open : meth unit;
  close : meth unit;
  is_alive : meth bool;
  load_replace_candidate : option string -> option string -> meth unit;
  load_merge_candidate : option string -> option string -> meth unit;
  compare_config : meth string;
  commit_config : meth unit;
  discard_config : meth unit;
  rollback : meth unit;
  cli : list string -> meth (list (string * string))
}.

(** [class BaseNetworkDriver(object)]: every method of the contract is
    [raise NotImplementedError]. *)
Definition BaseNetworkDriver : driver := {|
  open := raise_class NotImplementedError;
  close := raise_class NotImplementedError;
  is_alive := raise_class NotImplementedError;
  load_replace_candidate := fun filename config => raise_class NotImplementedError;
  load_merge_candidate := fun filename config => raise_class NotImplementedError;
  compare_config := raise_class NotImplementedError;
  commit_config := raise_class NotImplementedError;
  discard_config := raise_class NotImplementedError;
  rollback := raise_class NotImplementedError;
  cli := fun commands => raise_class NotImplementedError
|}.

(** The operations of the contract with their arguments, and the call of one
    of them through the method table. *)
Inductive operation :=
| Op_open
| Op_close
| Op_is_alive
| Op_load_replace_candidate (filename config : option string)
| Op_load_merge_candidate (filename config : option string)
| Op_compare_config
| Op_commit_config
| Op_discard_config
| Op_rollback
| Op_cli (commands : list string).

Definition as_value {A} (f : A -> pyvalue) (m : meth A) : meth pyvalue :=
  fun self =>
    match m self with
    | (self', Return a) => (self', Return (f a))
    | (self', Raise e) => (self', Raise e)
    end.

Definition invoke (d : driver) (op : operation) : meth pyvalue :=
  match op with
  | Op_open => as_value (fun _ => PyNone) (open d)
  | Op_close => as_value (fun _ => PyNone) (close d)
  | Op_is_alive => as_value PyBool (is_alive d)
  | Op_load_replace_candidate filename config =>
      as_value (fun _ => PyNone) (load_replace_candidate d filename config)
  | Op_load_merge_candidate filename config =>
      as_value (fun _ => PyNone) (load_merge_candidate d filename config)
  | Op_compare_config => as_value PyStr (compare_config d)
  | Op_commit_config => as_value (fun _ => PyNone) (commit_config d)
  | Op_discard_config => as_value (fun _ => PyNone) (discard_config d)
  | Op_rollback => as_value (fun _ => PyNone) (rollback d)
  | Op_cli commands => as_value PyDict (cli d commands)
  end.

(** A caller that makes one call after the other on the same instance,
    going on after a failure; the results are collected in order. *)
Fixpoint run_calls (d : driver) (ops : list operation) (self : St)
  : St * list (outcome pyvalue) :=
  match ops with
  | [] => (self, [])
  | op :: rest =>
      match invoke d op self with
      | (self1, r) =>
          match run_calls d rest self1 with
          | (self2, rs) => (self2, r :: rs)
          end
      end
  end.

(** [__init__(self, hostname, username, password, **kwargs)]: [self] is the
    attribute dictionary of the new object. *)
Definition __init__ (self : gmap string pyvalue)
    (hostname username password : string) (kwargs : gmap string pyvalue)
  : gmap string pyvalue * outcome unit :=
  (self, Raise (instantiate NotImplementedError)).

(** [BaseNetworkDriver(hostname, username, password, **kwargs)]: a new object
    without attributes is handed to [__init__]; the caller gets the object
    only if [__init__] returns. *)
Definition construct (hostname username password : string)
    (kwargs : gmap string pyvalue) : outcome (gmap string pyvalue) :=
  match __init__ ∅ hostname username password kwargs with
  | (self, Return _) => Return self
  | (_, Raise e) => Raise e
  end.

End Contract.
Arguments meth : clear implicits.
Arguments driver : clear implicits.

End Base.

(** ** The scoped session manager *)

Module Session.
Import Py Base.

(** What the manager does that the outside can see, in order. *)
Inductive event :=
| Called (method : string)
| Ran_block
| Printed (text : string).

#[global] Instance event_eq_dec : EqDecision event.
Proof. solve_decision. Defined.

Definition newline : string := String "010"%char "".

(** The text of [epilog] in [__raise_clean_exception]. *)
Definition epilog : string :=
  "NAPALM didn't catch this exception. Please, fill a bugfix on "
  ++ "https://github.com/napalm-automation/napalm/issues" ++ newline
  ++ "Don't forget to include this traceback.".

Section Manager.

Context {St : Type}.
Variable ns : namespaces.

(** The driver instance and the log of events. *)
Record world := World {
  session : St;
  log : list event
}.

Definition M (A : Type) : Type := world -> world * outcome A.

Definition emit (ev : event) (w : world) : world :=
  {| session := session w; log := log w ++ [ev] |}.

(** [self.name()]: the call is logged, then the method of the table runs on
    the instance. *)
Definition call {A} (name : string) (m : meth St A) : M A :=
  fun w =>
    let w1 := emit (Called name) w in
    match m (session w1) with
    | (self', r) => ({| session := self'; log := log w1 |}, r)
    end.

(** The test of [__raise_clean_exception]:
    [exc_type.__name__ not in dir(exceptions) and
     exc_type.__name__ not in __builtins__.keys()]. *)
Definition not_caught (exc_type : pyclass) : bool :=
  negb (bool_decide (cls_name exc_type ∈ exceptions_dir ns))
  && negb (bool_decide (cls_name exc_type ∈ builtins_keys ns)).

(** [__raise_clean_exception(exc_type, exc_value, exc_traceback)].  The
    exception [exc_value] is the one being handled at both call sites, so
    [raise exc_value] leaves its [__context__] as it is. *)
Definition __raise_clean_exception {A} (exc_type : pyclass) (exc_value : exc)
  : M A :=
  fun w =>
    let w1 := if not_caught exc_type then emit (Printed epilog) w else w in
    (w1, Raise exc_value).

(** [__enter__(self)]: [except Exception] catches the failures of
    [self.open()] whose class derives from [Exception]; any other one goes
    through untouched.  [return self] is the normal result. *)
Definition __enter__ (d : driver St) : M unit :=
  fun w =>
    match call "open" (open d) w with
    | (w1, Return _) => (w1, Return tt)
    | (w1, Raise e) =>
        if cls_is_Exception (exc_type e)
        then __raise_clean_exception (exc_type e) e w1
        else (w1, Raise e)
    end.

(** [__exit__(self, exc_type, exc_value, exc_traceback)].  The [with]
    statement passes the exception of the block, if there is one, with its
    own class as [exc_type]; the argument is [None] when the block ended
    normally.  A failure of [self.close()] leaves [__exit__] at once.  This
    is the call as the [with] statement makes it: [exc_value] is the
    exception being handled while [__exit__] runs, so [self.close()] raises
    under it. *)
Definition __exit__ (d : driver St) (exc_value : option exc) : M unit :=
  fun w =>
    match call "close" (close d) w with
    | (w1, Raise c) => (w1, Raise (raised_while_handling exc_value c))
    | (w1, Return _) =>
        match exc_value with
        | Some e => __raise_clean_exception (exc_type e) e w1
        | None => (w1, Return tt)
        end
    end.

(** The protected block: any code working on the session. *)
Definition run_block (block : meth St unit) : M unit :=
  fun w =>
    let w1 := emit Ran_block w in
    match block (session w1) with
    | (self', r) => ({| session := self'; log := log w1 |}, r)
    end.

(** [with device: block], as the language defines it: [__enter__], then the
    block, then [__exit__] with the exception of the block or with [None].
    [__exit__] returns [None], which is false, so the exception of the block
    is raised again when [__exit__] returns. *)
Definition with_statement (d : driver St) (block : meth St unit) : M unit :=
  fun w =>
    match __enter__ d w with
    | (w1, Raise e) => (w1, Raise e)
    | (w1, Return _) =>
        match run_block block w1 with
        | (w2, Return _) => __exit__ d None w2
        | (w2, Raise e) =>
            match __exit__ d (Some e) w2 with
            | (w3, Raise e') => (w3, Raise e')
            | (w3, Return _) => (w3, Raise e)
            end
        end
    end.

(** Observations on the log. *)
Definition calls_of (name : string) (l : list event) : nat :=
  length (filter (fun ev => ev = Called name) l).

Definition was_printed (text : string) (l : list event) : bool :=
  bool_decide (Printed text ∈ l).

Definition block_ran (l : list event) : bool :=
  bool_decide (Ran_block ∈ l).

(** The texts printed, in order. *)
Definition printed_texts (l : list event) : list string :=
  omap (fun ev => match ev with Printed text => Some text | _ => None end) l.

(** The exception being handled when [__exit__] runs: the one of the block,
    if the block raised. *)
Definition handled_of (r : outcome unit) : option exc :=
  match r with
  | Raise e => Some e
  | Return _ => None
  end.

(** What [__raise_clean_exception] adds to the log for a class. *)
Definition diagnostic (exc_type : pyclass) : list event :=
  if not_caught exc_type then [Printed epilog] else [].

End Manager.
Arguments world : clear implicits.
Arguments M : clear implicits.

End Session.

(** ** Sessions and drivers to run the model on *)

Module Lifecycle.
Import Py Base Session.

(** Modelled from the spec: the lifecycle states of a session and the
    configurations it holds.  base.py keeps no state on the instance; the
    record below is what a concrete driver would keep, and serves as the
    session of the drivers the model is run on. *)
Inductive lifecycle := Disconnected | Connected | CandidatePending | Closed.

Record device := Device {
  state : lifecycle;
  running : string;
  candidate : option string
}.

#[global] Instance lifecycle_eq_dec : EqDecision lifecycle.
Proof. solve_decision. Defined.
#[global] Instance device_eq_dec : EqDecision device.
Proof. solve_decision. Defined.

(** Modelled from the spec: the configuration and query operations, which
    the spec allows on a connected session only.  base.py makes no such
    distinction. *)
Definition needs_connection (op : operation) : bool :=
  match op with
  | Op_open | Op_close | Op_is_alive => false
  | Op_load_replace_candidate _ _ | Op_load_merge_candidate _ _
  | Op_compare_config | Op_commit_config | Op_discard_config
  | Op_rollback | Op_cli _ => true
  end.

(** Modelled from the spec: napalm_ng/exceptions.py is not among the
    sources; the error kinds the spec declares stand for the attribute names
    of that module, next to a few names every Python interpreter has among
    its builtins. *)
Definition napalm_ns : namespaces := {|
  exceptions_dir :=
    ["CommitError"; "LoadConfigError"; "NoCandidateConfiguration";
     "NotConnected"; "RollbackError"];
  builtins_keys :=
    ["BaseException"; "Exception"; "KeyboardInterrupt"; "NotImplementedError";
     "ValueError"; "len"; "print"]
|}.

(** Exception classes for the runs. *)
Definition CommitError : pyclass :=
  {| cls_name := "CommitError"; cls_module := "napalm_ng.exceptions";
     cls_is_Exception := true |}.
Definition foreign_CommitError : pyclass :=
  {| cls_name := "CommitError"; cls_module := "vendorlib.errors";
     cls_is_Exception := true |}.
Definition TransportError : pyclass :=
  {| cls_name := "TransportError"; cls_module := "vendorlib.errors";
     cls_is_Exception := true |}.
Definition AuthFailure : pyclass :=
  {| cls_name := "AuthFailure"; cls_module := "vendorlib.errors";
     cls_is_Exception := true |}.
Definition Abort : pyclass :=
  {| cls_name := "Abort"; cls_module := "vendorlib.errors";
     cls_is_Exception := false |}.

Definition error (c : pyclass) (message : string) : exc :=
  {| exc_type := c; exc_args := [message]; exc_context := None |}.

Definition boom : exc := error AuthFailure "boom".
Definition link_down : exc := error TransportError "link down".

(** A concrete driver: it overrides [open], [close] and
    [load_merge_candidate] and inherits the rest from the base class. *)
Definition stub_open : meth device unit :=
  fun self =>
    ({| state := Connected; running := running self;
        candidate := candidate self |}, Return tt).

Definition stub_close : meth device unit :=
  fun self =>
    ({| state := Closed; running := running self;
        candidate := candidate self |}, Return tt).

Definition stub_load_merge_candidate (filename config : option string)
  : meth device unit :=
  fun self =>
    ({| state := CandidatePending; running := running self;
        candidate := match filename with Some f => Some f | None => config end |},
     Return tt).

Definition StubDriver : driver device := {|
  open := stub_open;
  close := stub_close;
  is_alive := is_alive BaseNetworkDriver;
  load_replace_candidate := load_replace_candidate BaseNetworkDriver;
  load_merge_candidate := stub_load_merge_candidate;
  compare_config := compare_config BaseNetworkDriver;
  commit_config := commit_config BaseNetworkDriver;
  discard_config := discard_config BaseNetworkDriver;
  rollback := rollback BaseNetworkDriver;
  cli := cli BaseNetworkDriver
|}.

(** The same driver with a method replaced. *)
Definition with_open (m : meth device unit) (d : driver device) : driver device := {|
  open := m;
  close := close d;
  is_alive := is_alive d;
  load_replace_candidate := load_replace_candidate d;
  load_merge_candidate := load_merge_candidate d;
  compare_config := compare_config d;
  commit_config := commit_config d;
  discard_config := discard_config d;
  rollback := rollback d;
  cli := cli d
|}.

Definition with_close (m : meth device unit) (d : driver device) : driver device := {|
  open := open d;
  close := m;
  is_alive := is_alive d;
  load_replace_candidate := load_replace_candidate d;
  load_merge_candidate := load_merge_candidate d;
  compare_config := compare_config d;
  commit_config := commit_config d;
  discard_config := discard_config d;
  rollback := rollback d;
  cli := cli d
|}.

Definition failing (e : exc) : meth device unit := fun self => (self, Raise e).

(** The stub with a [close()] that fails, and the world a failed scope on a
    staged session ends in. *)
Definition FlakyDriver : driver device :=
  with_close (failing link_down) StubDriver.

(** A session that was never opened, and one with a candidate staged. *)
Definition fresh : device :=
  {| state := Disconnected; running := "hostname r1"; candidate := None |}.

Definition staged : device :=
  {| state := CandidatePending; running := "hostname r1";
     candidate := Some "interface X up" |}.

Definition closed : device :=
  {| state := Closed; running := "hostname r1"; candidate := None |}.

Definition start (s : device) : world device := {| session := s; log := [] |}.

Definition connected : device :=
  {| state := Connected; running := "hostname r1"; candidate := None |}.

Definition after_scope (s : device) : world device :=
  {| session := s; log := [Called "open"; Ran_block; Called "close"] |}.

End Lifecycle.

(** ** Properties of the scoped session manager *)

Module ManagerProps.
Import Py Base Session Lifecycle.
Local Open Scope list_scope.

Section Facts.

Context {St : Type}.
Variable ns : namespaces.

Local Abbreviation world := (world St).
Local Abbreviation driver := (driver St).

Lemma calls_of_app name (l1 l2 : list event) :
  calls_of name (l1 ++ l2) = calls_of name l1 + calls_of name l2.
Proof. unfold calls_of. by rewrite filter_app, length_app. Qed.

Lemma calls_of_diagnostic name t : calls_of name (diagnostic ns t) = 0.
Proof. unfold diagnostic. by destruct (not_caught ns t). Qed.

Lemma block_not_in_diagnostic t : Ran_block ∉ diagnostic ns t.
Proof.
  unfold diagnostic. destruct (not_caught ns t).
  - by intros [=]%list_elem_of_singleton.
  - apply not_elem_of_nil.
Qed.

Lemma raised_while_handling_type h c :
  exc_type (raised_while_handling h c) = exc_type c.
Proof. destruct h as [h|]; [destruct c|]; done. Qed.

Lemma raised_while_handling_args h c :
  exc_args (raised_while_handling h c) = exc_args c.
Proof. destruct h as [h|]; [destruct c|]; done. Qed.


(** The three steps, each as an equation on its result. *)
Lemma call_eq {A} name (m : meth St A) (w : world) s r :
  m (session w) = (s, r) →
  call name m w = ({| session := s; log := log w ++ [Called name] |}, r).
Proof. intros H. unfold call. simpl. by rewrite H. Qed.

Lemma raise_clean_eq {A} t e (w : world) :
  __raise_clean_exception (A:=A) ns t e w
  = ({| session := session w; log := log w ++ diagnostic ns t |}, Raise e).
Proof.
  unfold __raise_clean_exception, diagnostic.
  destruct (not_caught ns t); [done|].
  destruct w; simpl. by rewrite app_nil_r.
Qed.

Lemma enter_returns (d : driver) (w : world) s1 :
  open d (session w) = (s1, Return tt) →
  __enter__ ns d w
  = ({| session := s1; log := log w ++ [Called "open"] |}, Return tt).
Proof. intros H. unfold __enter__. by rewrite (call_eq _ _ _ _ _ H). Qed.

Lemma enter_raises (d : driver) (w : world) s1 e :
  open d (session w) = (s1, Raise e) →
  __enter__ ns d w
  = ({| session := s1;
        log := log w ++ Called "open"
               :: (if cls_is_Exception (exc_type e)
                   then diagnostic ns (exc_type e) else []) |}, Raise e).
Proof.
  intros H. unfold __enter__. rewrite (call_eq _ _ _ _ _ H).
  destruct (cls_is_Exception (exc_type e)).
  - rewrite raise_clean_eq. simpl. by rewrite <- app_assoc.
  - done.
Qed.

Lemma exit_close_raises (d : driver) ev (w : world) s c :
  close d (session w) = (s, Raise c) →
  __exit__ ns d ev w
  = ({| session := s; log := log w ++ [Called "close"] |},
     Raise (raised_while_handling ev c)).
Proof. intros H. unfold __exit__. by rewrite (call_eq _ _ _ _ _ H). Qed.

Lemma exit_reraises (d : driver) e (w : world) s :
  close d (session w) = (s, Return tt) →
  __exit__ ns d (Some e) w
  = ({| session := s;
        log := log w ++ Called "close" :: diagnostic ns (exc_type e) |},
     Raise e).
Proof.
  intros H. unfold __exit__. rewrite (call_eq _ _ _ _ _ H).
  rewrite raise_clean_eq. simpl. by rewrite <- app_assoc.
Qed.

Lemma exit_returns (d : driver) (w : world) s :
  close d (session w) = (s, Return tt) →
  __exit__ ns d None w
  = ({| session := s; log := log w ++ [Called "close"] |}, Return tt).
Proof. intros H. unfold __exit__. by rewrite (call_eq _ _ _ _ _ H). Qed.

Lemma run_block_eq (block : meth St unit) (w : world) s r :
  block (session w) = (s, r) →
  run_block block w = ({| session := s; log := log w ++ [Ran_block] |}, r).
Proof. intros H. unfold run_block. simpl. by rewrite H. Qed.

Lemma not_caught_spec t :
  not_caught ns t = true
  ↔ (cls_name t ∉ exceptions_dir ns) ∧ (cls_name t ∉ builtins_keys ns).
Proof.
  unfold not_caught.
  rewrite andb_true_iff, !negb_true_iff, !bool_decide_eq_false. done.
Qed.

(** C1 (as amended).  After a successful [open()], the [with] statement calls
    [close()] exactly once, after the protected block, whether the block
    returns or raises and whether [close()] returns or raises.  When the
    block raised and [close()] returned, the caller gets the exception of
    the block itself, unchanged, after [close()] has run; nothing but the
    diagnostic of an unknown class name follows the call of [close()]. *)
Theorem scoped_exit_closes_once (d : driver) (block : meth St unit)
    (w : world) s1 :
  open d (session w) = (s1, Return tt) →
  ∃ tail,
    log (with_statement ns d block w).1
      = log w ++ [Called "open"; Ran_block; Called "close"] ++ tail
    ∧ calls_of "close" tail = 0
    ∧ calls_of "close" (log (with_statement ns d block w).1)
      = calls_of "close" (log w) + 1
    ∧ ∀ s2 e s3,
        block s1 = (s2, Raise e) →
        close d s2 = (s3, Return tt) →
        with_statement ns d block w
        = ({| session := s3;
              log := log w ++ [Called "open"; Ran_block; Called "close"]
                     ++ diagnostic ns (exc_type e) |}, Raise e).
Proof.
  intros Hopen. unfold with_statement.
  rewrite (enter_returns _ _ _ Hopen).
  destruct (block s1) as [s2 rb] eqn:Hblock.
  rewrite (run_block_eq _ {| session := s1 |} s2 rb Hblock). simpl.
  destruct (close d s2) as [s3 rc] eqn:Hclose.
  assert (Hcount : ∀ tail, calls_of "close" tail = 0 →
    calls_of "close"
      (log w ++ [Called "open"; Ran_block; Called "close"] ++ tail)
    = calls_of "close" (log w) + 1).
  { intros tail Ht. rewrite !calls_of_app, Ht. by vm_compute calls_of at 2. }
  destruct rb as [[]|e], rc as [[]|c].
  - rewrite (exit_returns d {| session := s2 |} s3 Hclose). simpl.
    exists []. rewrite <- !app_assoc. simpl.
    split_and!; [done|done|by apply (Hcount [])|congruence].
  - rewrite (exit_close_raises d None {| session := s2 |} s3 c Hclose).
    simpl. exists []. rewrite <- !app_assoc. simpl.
    split_and!; [done|done|by apply (Hcount [])|congruence].
  - rewrite (exit_reraises d e {| session := s2 |} s3 Hclose). simpl.
    exists (diagnostic ns (exc_type e)). rewrite <- !app_assoc. simpl.
    split_and!; [done|apply calls_of_diagnostic| |].
    + apply (Hcount (diagnostic ns (exc_type e))), calls_of_diagnostic.
    + intros s2' e' s3' [= <- <-] Hc. rewrite Hclose in Hc.
      by injection Hc as <-.
  - rewrite (exit_close_raises d (Some e) {| session := s2 |} s3 c Hclose).
    simpl. exists []. rewrite <- !app_assoc. simpl.
    split_and!; [done|done|by apply (Hcount [])|congruence].
Qed.


(** C3.  When [open()] fails, [__enter__] does not return: the [with]
    statement ends with the exception [open()] raised, that very one; the
    protected block is not run and [close()] is not called; the session is
    as [open()] left it.  Only the diagnostic of an unknown class name may
    follow the call of [open()]. *)
Theorem failed_open_skips_block (d : driver) (block : meth St unit)
    (w : world) s1 e :
  open d (session w) = (s1, Raise e) →
  let new :=
    Called "open"
    :: (if cls_is_Exception (exc_type e)
        then diagnostic ns (exc_type e) else []) in
  __enter__ ns d w = ({| session := s1; log := log w ++ new |}, Raise e)
  ∧ with_statement ns d block w
    = ({| session := s1; log := log w ++ new |}, Raise e)
  ∧ (Ran_block ∉ new)
  ∧ calls_of "close" new = 0.
Proof.
  intros Hopen new. split_and!.
  - apply (enter_raises _ _ _ _ Hopen).
  - unfold with_statement. by rewrite (enter_raises _ _ _ _ Hopen).
  - subst new. intros [?|Hin]%elem_of_cons; [done|].
    destruct (cls_is_Exception (exc_type e)).
    + by apply block_not_in_diagnostic in Hin.
    + by apply not_elem_of_nil in Hin.
  - subst new. change (Called "open" :: ?l) with ([Called "open"] ++ l).
    rewrite calls_of_app.
    destruct (cls_is_Exception (exc_type e));
      [by rewrite calls_of_diagnostic|done].
Qed.

(** C4 (as amended).  A failure that reaches [__raise_clean_exception] - a
    failure of [open()] whose class derives from [Exception], or the failure
    of the protected block once [close()] has returned - is raised again as
    it is.  The diagnostic is printed before that exactly when the name of
    its class is neither an attribute name of the napalm exceptions module
    nor the name of a builtin; otherwise nothing is printed. *)
Theorem clean_exception_diagnostic (d : driver) (w : world) e :
  (∀ s1, open d (session w) = (s1, Raise e) →
         cls_is_Exception (exc_type e) = true →
         __enter__ ns d w
         = ({| session := s1;
               log := log w ++ Called "open" :: diagnostic ns (exc_type e) |},
            Raise e))
  ∧ (∀ s3, close d (session w) = (s3, Return tt) →
           __exit__ ns d (Some e) w
           = ({| session := s3;
                 log := log w
                        ++ Called "close" :: diagnostic ns (exc_type e) |},
              Raise e))
  ∧ ((cls_name (exc_type e) ∉ exceptions_dir ns)
     ∧ (cls_name (exc_type e) ∉ builtins_keys ns) →
     diagnostic ns (exc_type e) = [Printed epilog])
  ∧ (cls_name (exc_type e) ∈ exceptions_dir ns
     ∨ cls_name (exc_type e) ∈ builtins_keys ns →
     diagnostic ns (exc_type e) = []).
Proof.
  split_and!.
  - intros s1 Hopen Hexc. rewrite (enter_raises _ _ _ _ Hopen). by rewrite Hexc.
  - intros s3 Hclose. apply (exit_reraises _ _ _ _ Hclose).
  - intros H%not_caught_spec. unfold diagnostic. by rewrite H.
  - intros H. unfold diagnostic.
    destruct (not_caught ns (exc_type e)) eqn:Hn; [|done].
    apply not_caught_spec in Hn. destruct Hn, H; done.
Qed.

(** C10.  [__raise_clean_exception] looks at the class of the exception only
    through its [__name__]: for two classes of the same name the decision to
    print the diagnostic is the same, whatever the classes are, and each
    call raises the exception it was given.  The decision is the lookup of
    the name among the attribute names of the napalm exceptions module and
    among the names of the builtins. *)
Theorem classification_by_class_name t1 t2 e1 e2 (w : world) :
  cls_name t1 = cls_name t2 →
  not_caught ns t1 = not_caught ns t2
  ∧ (not_caught ns t1 = true
     ↔ (cls_name t1 ∉ exceptions_dir ns) ∧ (cls_name t1 ∉ builtins_keys ns))
  ∧ ∃ w',
      __raise_clean_exception (A:=unit) ns t1 e1 w = (w', Raise e1)
      ∧ __raise_clean_exception (A:=unit) ns t2 e2 w = (w', Raise e2)
      ∧ session w' = session w
      ∧ log w' = log w ++ diagnostic ns t1.
Proof.
  intros Hname.
  assert (Hsame : not_caught ns t1 = not_caught ns t2)
    by (unfold not_caught; by rewrite Hname).
  split_and!; [done|apply not_caught_spec|].
  eexists. split_and!.
  - apply raise_clean_eq.
  - rewrite raise_clean_eq. unfold diagnostic. by rewrite Hsame.
  - done.
  - done.
Qed.

End Facts.

(** Runs of the manager on the drivers of [Lifecycle]. *)

Lemma scoped_exit_closes_once_witness :
  open StubDriver (session (start fresh))
  = ({| state := Connected; running := "hostname r1"; candidate := None |},
     Return tt)
  ∧ calls_of "close"
      (log (with_statement napalm_ns StubDriver (failing boom) (start fresh)).1)
    = 1
  ∧ with_statement napalm_ns StubDriver (failing boom) (start fresh)
    = ({| session :=
            {| state := Closed; running := "hostname r1"; candidate := None |};
          log := [Called "open"; Ran_block; Called "close"; Printed epilog] |},
       Raise boom).
Proof.
  split; [reflexivity|].
  destruct (scoped_exit_closes_once napalm_ns StubDriver (failing boom)
              (start fresh) _ eq_refl) as (tail & Hlog & Htail & Hcount & Hre).
  split; [exact Hcount | exact (Hre _ _ _ eq_refl eq_refl)].
Defined.

(** C1, as stated, fails: with a [close()] that raises, [close()] is still
    called once, but the caller does not get the exception of the block. *)
Lemma block_failure_not_always_observed :
  ¬ (∀ (d : driver device) (block : meth device unit) (w : world device)
       s1 s2 e,
       open d (session w) = (s1, Return tt) →
       block s1 = (s2, Raise e) →
       calls_of "close" (log (with_statement napalm_ns d block w).1)
       = calls_of "close" (log w) + 1
       ∧ (with_statement napalm_ns d block w).2 = Raise e).
Proof.
  intros H.
  destruct (H (with_close (failing link_down) StubDriver) (failing boom)
              (start fresh) _ _ _ eq_refl eq_refl) as [_ Hr].
  vm_compute in Hr. discriminate Hr.
Qed.



Lemma failed_open_skips_block_witness :
  open (with_open (failing boom) StubDriver) (session (start fresh))
  = (fresh, Raise boom)
  ∧ with_statement napalm_ns (with_open (failing boom) StubDriver)
      stub_open (start fresh)
    = ({| session := fresh; log := [Called "open"; Printed epilog] |},
       Raise boom).
Proof.
  split; [reflexivity|].
  exact (proj1 (proj2 (failed_open_skips_block napalm_ns
                         (with_open (failing boom) StubDriver) stub_open
                         (start fresh) _ boom eq_refl))).
Defined.

Lemma clean_exception_diagnostic_witness :
  __exit__ napalm_ns StubDriver (Some boom) (start fresh)
  = ({| session :=
          {| state := Closed; running := "hostname r1"; candidate := None |};
        log := [Called "close"; Printed epilog] |}, Raise boom)
  ∧ __exit__ napalm_ns StubDriver (Some (error CommitError "rejected"))
      (start staged)
    = ({| session :=
            {| state := Closed; running := "hostname r1";
               candidate := Some "interface X up" |};
          log := [Called "close"] |}, Raise (error CommitError "rejected")).
Proof.
  split.
  - exact (proj1 (proj2 (clean_exception_diagnostic napalm_ns StubDriver
                           (start fresh) boom)) _ eq_refl).
  - exact (proj1 (proj2 (clean_exception_diagnostic napalm_ns StubDriver
                           (start staged) (error CommitError "rejected")))
             _ eq_refl).
Defined.

(** C4, as stated, fails: a failure of [close()] leaves the manager without
    passing through [__raise_clean_exception]; its class name is unknown to
    both name lists and yet nothing is printed. *)
Lemma unknown_close_failure_without_diagnostic :
  ¬ (∀ (d : driver device) (block : meth device unit) (w w' : world device) e,
       log w = [] →
       with_statement napalm_ns d block w = (w', Raise e) →
       not_caught napalm_ns (exc_type e) = true →
       was_printed epilog (log w') = true).
Proof.
  intros H.
  specialize (H (with_close (failing link_down) StubDriver) stub_open
                (start fresh) _ _ eq_refl eq_refl eq_refl).
  vm_compute in H. discriminate H.
Qed.

Lemma classification_by_class_name_witness :
  cls_name CommitError = cls_name foreign_CommitError
  ∧ CommitError ≠ foreign_CommitError
  ∧ not_caught napalm_ns CommitError = not_caught napalm_ns foreign_CommitError.
Proof.
  split; [reflexivity|]. split; [discriminate|].
  exact (proj1 (classification_by_class_name napalm_ns
                  CommitError foreign_CommitError
                  (error CommitError "rejected")
                  (error foreign_CommitError "rejected")
                  (start fresh) eq_refl)).
Defined.

End ManagerProps.

(** ** Properties of the contract of the base class *)

Module ContractProps.
Import Py Base Session Lifecycle.
Local Open Scope list_scope.

Section Facts.

Context {St : Type}.

Local Abbreviation not_implemented := (instantiate NotImplementedError).

Lemma as_value_raise {A} (f : A → pyvalue) (m : meth St A) self self' e :
  m self = (self', Raise e) → as_value f m self = (self', Raise e).
Proof. intros H. unfold as_value. by rewrite H. Qed.

Lemma invoke_base (op : operation) (self : St) :
  invoke BaseNetworkDriver op self = (self, Raise not_implemented).
Proof. destruct op; by apply as_value_raise. Qed.

Lemma run_calls_base (ops : list operation) (self : St) :
  run_calls BaseNetworkDriver ops self
  = (self, (λ _, Raise not_implemented) <$> ops).
Proof.
  induction ops as [|op rest IH]; simpl; [done|].
  by rewrite invoke_base, IH.
Qed.

(** C7.  Every operation of the contract, called on the base class with any
    arguments and on any instance, raises [NotImplementedError] - an
    instance of the builtin class, without arguments; it gives no normal
    result and no other exception, and it leaves the instance as it was. *)
Theorem base_operations_not_implemented (op : operation) (self : St) :
  invoke BaseNetworkDriver op self = (self, Raise not_implemented)
  ∧ (∀ v, (invoke BaseNetworkDriver op self).2 ≠ Return v)
  ∧ (∀ e, (invoke BaseNetworkDriver op self).2 = Raise e →
          exc_type e = NotImplementedError ∧ exc_args e = []).
Proof.
  rewrite invoke_base. simpl. split_and!; [done|done|].
  by intros e [= <-].
Qed.

(** C5 (as amended).  [commit_config()] as a driver inherits it from the
    base class commits nothing: on every session it raises
    [NotImplementedError] and leaves the session exactly as it was, so
    anything one can observe of the session - its running configuration, its
    candidate - is what it was before the call. *)
Theorem inherited_commit_changes_nothing (d : driver St) (self : St) :
  commit_config d = commit_config BaseNetworkDriver →
  commit_config d self = (self, Raise not_implemented)
  ∧ invoke d Op_commit_config self = (self, Raise not_implemented)
  ∧ ∀ {A} (observe : St → A),
      observe (invoke d Op_commit_config self).1 = observe self.
Proof.
  intros Hinherit.
  assert (H : commit_config d self = (self, Raise not_implemented))
    by (by rewrite Hinherit).
  assert (H' : invoke d Op_commit_config self = (self, Raise not_implemented))
    by (by apply as_value_raise).
  split_and!; [done|done|]. intros A observe. by rewrite H'.
Qed.

(** C6 (as amended).  [close()] of the base class raises
    [NotImplementedError] on every session, whatever its state, and leaves
    it as it was; [__exit__] calls it without a guard, so on a driver that
    inherits [close()] what leaves [__exit__] is a [NotImplementedError]
    without arguments, whatever [__exit__] was called with. *)
Theorem base_close_always_raises (ns : namespaces) (d : driver St)
    (exc_value : option exc) (w : world St) :
  close d = close BaseNetworkDriver →
  close d (session w) = (session w, Raise not_implemented)
  ∧ ∃ x,
      __exit__ ns d exc_value w
      = ({| session := session w; log := log w ++ [Called "close"] |},
         Raise x)
      ∧ exc_type x = NotImplementedError
      ∧ exc_args x = [].
Proof.
  intros Hinherit.
  assert (H : close d (session w) = (session w, Raise not_implemented))
    by (by rewrite Hinherit).
  split; [done|].
  exists (raised_while_handling exc_value not_implemented). split_and!.
  - by apply ManagerProps.exit_close_raises.
  - apply ManagerProps.raised_while_handling_type.
  - apply ManagerProps.raised_while_handling_args.
Qed.

(** C8 (as amended).  On the base class no call history makes an operation
    succeed: after any sequence of calls, [open()] included, the session is
    what it was, every call of the sequence has raised
    [NotImplementedError], and so does the next operation.  The exception
    is never one named [NotConnected]. *)
Theorem base_operations_fail_after_any_calls (history : list operation)
    (op : operation) (self : St) :
  (run_calls BaseNetworkDriver history self).1 = self
  ∧ (∀ r, r ∈ (run_calls BaseNetworkDriver history self).2 →
          r = Raise not_implemented)
  ∧ invoke BaseNetworkDriver op
      (run_calls BaseNetworkDriver history self).1
    = (self, Raise not_implemented)
  ∧ cls_name (exc_type not_implemented) ≠ "NotConnected".
Proof.
  rewrite run_calls_base. simpl. split_and!; [done| |apply invoke_base|done].
  intros r (op' & -> & _)%list_elem_of_fmap. done.
Qed.

End Facts.

(** C9.  Calling the class [BaseNetworkDriver] raises
    [NotImplementedError] for every hostname, username, password and keyword
    arguments: [__init__] raises before it sets any attribute, and the
    caller gets no object. *)
Theorem base_class_cannot_be_instantiated (hostname username password : string)
    (kwargs : gmap string pyvalue) :
  construct hostname username password kwargs
  = Raise (instantiate NotImplementedError)
  ∧ ∀ self,
      __init__ self hostname username password kwargs
      = (self, Raise (instantiate NotImplementedError)).
Proof. done. Qed.

Lemma inherited_commit_changes_nothing_witness :
  commit_config StubDriver = commit_config BaseNetworkDriver
  ∧ commit_config StubDriver staged
    = (staged, Raise (instantiate NotImplementedError))
  ∧ candidate (invoke StubDriver Op_commit_config staged).1
    = Some "interface X up".
Proof.
  split; [reflexivity|].
  destruct (inherited_commit_changes_nothing StubDriver staged eq_refl)
    as (H1 & _ & H3).
  split; [exact H1 | exact (H3 _ candidate)].
Defined.

(** C5, as stated, fails: a driver that stages candidates and inherits
    [commit_config()] neither commits the pending candidate nor fails with
    a [CommitError]. *)
Lemma inherited_commit_is_no_CommitError :
  ¬ (∀ (self : device) (c : string),
       candidate self = Some c →
       (∃ self', commit_config StubDriver self = (self', Return tt)
                 ∧ running self' = c ∧ candidate self' = None)
       ∨ (∃ e, commit_config StubDriver self = (self, Raise e)
               ∧ cls_name (exc_type e) = "CommitError")).
Proof.
  intros H.
  destruct (H staged _ eq_refl) as [(self' & Hc & _)|(e & Hc & Hname)].
  - discriminate Hc.
  - injection Hc as <-. discriminate Hname.
Qed.

Lemma base_close_always_raises_witness :
  close (with_open stub_open BaseNetworkDriver) = close BaseNetworkDriver
  ∧ close (with_open stub_open BaseNetworkDriver) (session (start closed))
    = (closed, Raise (instantiate NotImplementedError)).
Proof.
  split; [reflexivity|].
  exact (proj1 (base_close_always_raises napalm_ns
                  (with_open stub_open BaseNetworkDriver) None (start closed)
                  eq_refl)).
Defined.

(** C6, as stated, fails on the base class: [close()] raises on a session
    that was never opened, and on a closed session it is not a call that
    just returns. *)
Lemma base_close_raises_when_never_opened :
  ¬ (∀ self : device,
       (state self = Disconnected →
        ∀ e, (close BaseNetworkDriver self).2 ≠ Raise e)
       ∧ (state self = Closed →
          close BaseNetworkDriver self = (self, Return tt))).
Proof.
  intros H. destruct (H fresh) as [Hnever _].
  by apply (Hnever eq_refl (instantiate NotImplementedError)).
Qed.

(** C8, as stated, fails on the base class: on a session that was never
    opened the operations fail, but with [NotImplementedError] and not with
    an exception named [NotConnected]. *)
Lemma disconnected_call_is_not_NotConnected :
  ¬ (∀ (op : operation) (self : device),
       needs_connection op = true →
       state self = Disconnected →
       ∃ self' e, invoke BaseNetworkDriver op self = (self', Raise e)
                  ∧ cls_name (exc_type e) = "NotConnected").
Proof.
  intros H.
  destruct (H (Op_cli ["show version"]) fresh eq_refl eq_refl)
    as (self' & e & Hr & Hname).
  injection Hr as _ <-. discriminate Hname.
Qed.

Lemma base_operations_not_implemented_witness :
  invoke BaseNetworkDriver (Op_cli ["show version"; "show version"]) fresh
  = (fresh, Raise (instantiate NotImplementedError))
  ∧ invoke BaseNetworkDriver
      (Op_load_merge_candidate (Some "r1.conf") (Some "interface X up")) staged
    = (staged, Raise (instantiate NotImplementedError)).
Proof.
  split.
  - exact (proj1 (base_operations_not_implemented
                    (Op_cli ["show version"; "show version"]) fresh)).
  - exact (proj1 (base_operations_not_implemented
                    (Op_load_merge_candidate (Some "r1.conf")
                       (Some "interface X up")) staged)).
Defined.

Lemma base_operations_fail_after_any_calls_witness :
  invoke BaseNetworkDriver Op_commit_config
    (run_calls BaseNetworkDriver
       [Op_open; Op_load_merge_candidate None (Some "interface X up")]
       fresh).1
  = (fresh, Raise (instantiate NotImplementedError)).
Proof.
  exact (proj1 (proj2 (proj2 (base_operations_fail_after_any_calls
    [Op_open; Op_load_merge_candidate None (Some "interface X up")]
    Op_commit_config fresh)))).
Defined.

End ContractProps.

(** ** The scoped session as a whole *)

Module ScopeProps.
Import Py Base Session Lifecycle.
Local Open Scope list_scope.

Section Facts.

Context {St : Type}.
Variable ns : namespaces.

Local Abbreviation world := (world St).
Local Abbreviation driver := (driver St).
Local Abbreviation scope := [Called "open"; Ran_block; Called "close"].

(** The [with] statement, by the results of [open()], of the block and of
    [close()]. *)
Lemma with_statement_cases (d : driver) (block : meth St unit) (w : world) :
  with_statement ns d block w
  = match open d (session w) with
    | (s1, Raise e) =>
        ({| session := s1;
            log := log w ++ Called "open"
                   :: (if cls_is_Exception (exc_type e)
                       then diagnostic ns (exc_type e) else []) |}, Raise e)
    | (s1, Return _) =>
        match block s1 with
        | (s2, rb) =>
            match close d s2 with
            | (s3, Raise c) =>
                ({| session := s3; log := log w ++ scope |},
                 Raise (raised_while_handling (handled_of rb) c))
            | (s3, Return _) =>
                match rb with
                | Return _ =>
                    ({| session := s3; log := log w ++ scope |}, Return tt)
                | Raise e =>
                    ({| session := s3;
                        log := log w ++ scope ++ diagnostic ns (exc_type e) |},
                     Raise e)
                end
            end
        end
    end.
Proof.
  unfold with_statement.
  destruct (open d (session w)) as [s1 [[]|e]] eqn:Hopen.
  - rewrite (ManagerProps.enter_returns ns _ _ _ Hopen).
    destruct (block s1) as [s2 rb] eqn:Hblock.
    rewrite (ManagerProps.run_block_eq _ {| session := s1 |} s2 rb Hblock).
    simpl. destruct (close d s2) as [s3 [[]|c]] eqn:Hclose, rb as [[]|e].
    + rewrite (ManagerProps.exit_returns ns d {| session := s2 |} s3 Hclose).
      simpl. by rewrite <- !app_assoc.
    + rewrite (ManagerProps.exit_reraises ns d e {| session := s2 |} s3 Hclose).
      simpl. by rewrite <- !app_assoc.
    + rewrite (ManagerProps.exit_close_raises ns d None {| session := s2 |}
                 s3 c Hclose).
      simpl. by rewrite <- !app_assoc.
    + rewrite (ManagerProps.exit_close_raises ns d (Some e)
                 {| session := s2 |} s3 c Hclose).
      simpl. by rewrite <- !app_assoc.
  - by rewrite (ManagerProps.enter_raises ns _ _ _ _ Hopen).
Qed.

Lemma printed_texts_diagnostic t :
  printed_texts (diagnostic ns t)
  = if not_caught ns t then [epilog] else [].
Proof. unfold diagnostic. by destruct (not_caught ns t). Qed.

Lemma printed_texts_app l1 l2 :
  printed_texts (l1 ++ l2) = printed_texts l1 ++ printed_texts l2.
Proof. apply omap_app. Qed.

(** X1.  The [with] statement ends normally exactly when [open()], the
    block and [close()] all return; it then leaves the session as
    [close()] left it, after one call of [open()], the block and one call
    of [close()], and prints nothing. *)
Theorem scope_returns_iff (d : driver) (block : meth St unit) (w : world) :
  ((with_statement ns d block w).2 = Return tt
   ↔ ∃ s1 s2 s3, open d (session w) = (s1, Return tt)
                 ∧ block s1 = (s2, Return tt)
                 ∧ close d s2 = (s3, Return tt))
  ∧ ∀ s1 s2 s3,
      open d (session w) = (s1, Return tt) →
      block s1 = (s2, Return tt) →
      close d s2 = (s3, Return tt) →
      with_statement ns d block w
      = ({| session := s3; log := log w ++ scope |}, Return tt).
Proof.
  rewrite with_statement_cases. split.
  - split.
    + destruct (open d (session w)) as [s1 [[]|e]]; [|done].
      destruct (block s1) as [s2 rb] eqn:Hb.
      destruct (close d s2) as [s3 [[]|c]] eqn:Hc; [|done].
      destruct rb as [[]|e]; [|done]. intros _. by exists s1, s2, s3.
    + intros (s1 & s2 & s3 & -> & -> & ->). done.
  - intros s1 s2 s3 -> -> ->. done.
Qed.

(** X2.  [__exit__] never swallows the exception it is given: called with
    an exception it always raises - that exception when [close()] returned,
    one with the class and payload of the one of [close()] when [close()]
    raised - and [close()] has been called before. *)
Theorem exit_never_suppresses (d : driver) (e : exc) (w : world) :
  (∀ u, (__exit__ ns d (Some e) w).2 ≠ Return u)
  ∧ (∀ s, close d (session w) = (s, Return tt) →
          (__exit__ ns d (Some e) w).2 = Raise e)
  ∧ (∀ s c, close d (session w) = (s, Raise c) →
            ∃ x, (__exit__ ns d (Some e) w).2 = Raise x
                 ∧ exc_type x = exc_type c
                 ∧ exc_args x = exc_args c)
  ∧ ∃ tail, log (__exit__ ns d (Some e) w).1
            = log w ++ Called "close" :: tail.
Proof.
  destruct (close d (session w)) as [s [[]|c]] eqn:Hclose.
  - rewrite (ManagerProps.exit_reraises ns d e w s Hclose). simpl.
    split_and!; [done|done|done|by eexists].
  - rewrite (ManagerProps.exit_close_raises ns d (Some e) w s c Hclose).
    simpl. split_and!; [done|done| |by exists []].
    intros s' c' [= _ <-].
    exists (raised_while_handling (Some e) c). split_and!; [done| |].
    + apply (ManagerProps.raised_while_handling_type (Some e) c).
    + apply (ManagerProps.raised_while_handling_args (Some e) c).
Qed.

(** X3.  When the block returned and [close()] raises, the caller gets the
    exception of [close()] exactly as [close()] raised it; it is not looked
    up in the name lists, so nothing is printed whatever its class. *)
Theorem close_failure_after_clean_block (d : driver) (block : meth St unit)
    (w : world) s1 s2 s3 c :
  open d (session w) = (s1, Return tt) →
  block s1 = (s2, Return tt) →
  close d s2 = (s3, Raise c) →
  with_statement ns d block w
  = ({| session := s3; log := log w ++ scope |}, Raise c).
Proof.
  intros Hopen Hblock Hclose.
  by rewrite with_statement_cases, Hopen, Hblock, Hclose.
Qed.

(** X4.  One [with] statement prints the diagnostic at most once.  When it
    is printed it is the last thing the manager does, the statement ends
    with an exception, and the name of the class of that exception is in
    neither name list. *)
Theorem diagnostic_at_most_once (d : driver) (block : meth St unit)
    (w : world) :
  ∃ new,
    log (with_statement ns d block w).1 = log w ++ new
    ∧ (printed_texts new = []
       ∨ (printed_texts new = [epilog]
          ∧ last new = Some (Printed epilog)
          ∧ ∃ e, (with_statement ns d block w).2 = Raise e
                 ∧ not_caught ns (exc_type e) = true)).
Proof.
  rewrite with_statement_cases.
  destruct (open d (session w)) as [s1 [[]|e]].
  - destruct (block s1) as [s2 rb]. destruct (close d s2) as [s3 [[]|c]].
    + destruct rb as [[]|e].
      * exists scope. split; [done|by left].
      * exists (scope ++ diagnostic ns (exc_type e)). split; [done|].
        unfold diagnostic.
        destruct (not_caught ns (exc_type e)) eqn:Hn; [right|by left].
        simpl. split_and!; [done|done|by exists e].
    + exists scope. split; [done|by left].
  - simpl. eexists. split; [done|].
    unfold diagnostic.
    destruct (cls_is_Exception (exc_type e)); [|by left].
    destruct (not_caught ns (exc_type e)) eqn:Hn; [right|by left].
    simpl. split_and!; [done|done|by exists e].
Qed.

(** X5.  [open()] is called exactly once and first.  The block runs, and
    [close()] is called, exactly when [open()] returned: [close()] is called
    once if the block ran and not at all otherwise. *)
Theorem open_close_pairing (d : driver) (block : meth St unit) (w : world) :
  ∃ new,
    log (with_statement ns d block w).1 = log w ++ new
    ∧ head new = Some (Called "open")
    ∧ calls_of "open" new = 1
    ∧ calls_of "close" new = (if block_ran new then 1 else 0)
    ∧ (block_ran new = true ↔ ∃ s1, open d (session w) = (s1, Return tt)).
Proof.
  rewrite with_statement_cases.
  assert (Hshape : ∀ t,
    calls_of "open" (scope ++ diagnostic ns t) = 1
    ∧ calls_of "close" (scope ++ diagnostic ns t) = 1
    ∧ block_ran (scope ++ diagnostic ns t) = true).
  { intros t. rewrite !ManagerProps.calls_of_app.
    rewrite !ManagerProps.calls_of_diagnostic. split_and!; [done|done|].
    apply bool_decide_eq_true_2. set_solver. }
  destruct (open d (session w)) as [s1 [[]|e]].
  - destruct (block s1) as [s2 rb]. destruct (close d s2) as [s3 [[]|c]].
    + destruct rb as [[]|e].
      * exists scope. split_and!; [done|done|done|done|].
        split; [by exists s1|done].
      * exists (scope ++ diagnostic ns (exc_type e)).
        destruct (Hshape (exc_type e)) as (Ho & Hc & Hb).
        rewrite Ho, Hc, Hb. split_and!; [done|done|done|done|].
        split; [by exists s1|done].
    + exists scope. split_and!; [done|done|done|done|].
      split; [by exists s1|done].
  - simpl. eexists. split; [done|].
    assert (Hno : block_ran
      (Called "open" :: (if cls_is_Exception (exc_type e)
                         then diagnostic ns (exc_type e) else [])) = false).
    { apply bool_decide_eq_false_2. intros [?|Hin]%elem_of_cons; [done|].
      destruct (cls_is_Exception (exc_type e)).
      - by apply ManagerProps.block_not_in_diagnostic in Hin.
      - by apply not_elem_of_nil in Hin. }
    rewrite Hno.
    change (Called "open" :: ?l) with ([Called "open"] ++ l).
    rewrite !ManagerProps.calls_of_app.
    assert (Hd : ∀ name, calls_of name
      (if cls_is_Exception (exc_type e)
       then diagnostic ns (exc_type e) else []) = 0).
    { intros name. destruct (cls_is_Exception (exc_type e));
        [apply ManagerProps.calls_of_diagnostic|done]. }
    rewrite !Hd. split_and!; [done|done|done|].
    split; [done|]. by intros [s [=]].
Qed.

(** X6.  The manager raises no exception of its own.  Whatever the [with]
    statement ends with was raised by [open()], or by the block while
    [close()] returned, or it has the class and the payload of an exception
    raised by [close()]. *)
Theorem exceptions_come_from_driver_or_block (d : driver)
    (block : meth St unit) (w w' : world) x :
  with_statement ns d block w = (w', Raise x) →
  (∃ s1, open d (session w) = (s1, Raise x))
  ∨ (∃ s1 s2 s3, open d (session w) = (s1, Return tt)
                 ∧ block s1 = (s2, Raise x)
                 ∧ close d s2 = (s3, Return tt))
  ∨ (∃ s1 s2 rb s3 c, open d (session w) = (s1, Return tt)
                      ∧ block s1 = (s2, rb)
                      ∧ close d s2 = (s3, Raise c)
                      ∧ exc_type x = exc_type c
                      ∧ exc_args x = exc_args c).
Proof.
  rewrite with_statement_cases.
  destruct (open d (session w)) as [s1 [[]|e]] eqn:Hopen.
  - destruct (block s1) as [s2 rb] eqn:Hblock.
    destruct (close d s2) as [s3 [[]|c]] eqn:Hclose.
    + destruct rb as [[]|e]; [done|]. intros [= _ <-].
      right; left. by exists s1, s2, s3.
    + intros [= _ <-]. right; right. exists s1, s2, rb, s3, c.
      split_and!; [done|done|done| |].
      * apply ManagerProps.raised_while_handling_type.
      * apply ManagerProps.raised_while_handling_args.
  - intros [= _ <-]. left. by exists s1.
Qed.

(** X7.  On a driver that inherits [open()] the [with] statement ends at
    once with [NotImplementedError]: the block does not run, [close()] is
    not called and the session is untouched.  As [NotImplementedError] is
    the name of a builtin, nothing is printed. *)
Theorem scope_on_driver_without_open (d : driver) (block : meth St unit)
    (w : world) :
  open d = open BaseNetworkDriver →
  "NotImplementedError" ∈ builtins_keys ns →
  with_statement ns d block w
  = ({| session := session w; log := log w ++ [Called "open"] |},
     Raise (instantiate NotImplementedError)).
Proof.
  intros Hinherit Hbuiltin. rewrite with_statement_cases, Hinherit. simpl.
  assert (Hd : diagnostic ns NotImplementedError = []).
  { unfold diagnostic.
    destruct (not_caught ns NotImplementedError) eqn:Hn; [|done].
    apply ManagerProps.not_caught_spec in Hn. by destruct Hn. }
  by rewrite Hd.
Qed.

End Facts.

(** X8.  More names, fewer diagnostics: when both name lists grow, a class
    that was looked up without a diagnostic still is; a diagnostic printed
    with the longer lists is printed with the shorter ones. *)
Theorem more_names_fewer_diagnostics (ns ns' : namespaces) (t : pyclass) :
  exceptions_dir ns ⊆ exceptions_dir ns' →
  builtins_keys ns ⊆ builtins_keys ns' →
  (not_caught ns' t = true → not_caught ns t = true)
  ∧ (diagnostic ns t = [] → diagnostic ns' t = []).
Proof.
  intros He Hb.
  assert (H : not_caught ns' t = true → not_caught ns t = true).
  { rewrite !ManagerProps.not_caught_spec. intros [H1 H2].
    split; intros Hin; [apply H1, He, Hin | apply H2, Hb, Hin]. }
  split; [done|]. unfold diagnostic.
  destruct (not_caught ns' t); [|done].
  by rewrite (H eq_refl).
Qed.

(** X9.  On a driver that inherits [close()] no [with] statement ends
    normally once [open()] has returned: the block runs, what it did to the
    session stays, and the caller gets a [NotImplementedError] - also when
    the block itself raised. *)
Theorem scope_on_driver_without_close {St : Type} (ns : namespaces)
    (d : driver St) (block : meth St unit) (w : world St) s1 s2 rb :
  close d = close BaseNetworkDriver →
  open d (session w) = (s1, Return tt) →
  block s1 = (s2, rb) →
  ∃ x, with_statement ns d block w
       = ({| session := s2;
             log := log w ++ [Called "open"; Ran_block; Called "close"] |},
          Raise x)
       ∧ exc_type x = NotImplementedError
       ∧ exc_args x = [].
Proof.
  intros Hinherit Hopen Hblock.
  rewrite with_statement_cases, Hopen, Hblock, Hinherit. simpl.
  eexists. split; [done|].
  split; [apply ManagerProps.raised_while_handling_type
         |apply ManagerProps.raised_while_handling_args].
Qed.

Lemma scope_returns_iff_witness :
  with_statement napalm_ns StubDriver
    (stub_load_merge_candidate None (Some "interface X up")) (start fresh)
  = (after_scope {| state := Closed; running := "hostname r1";
                    candidate := Some "interface X up" |}, Return tt).
Proof.
  exact (proj2 (scope_returns_iff napalm_ns StubDriver
                  (stub_load_merge_candidate None (Some "interface X up"))
                  (start fresh)) _ _ _ eq_refl eq_refl eq_refl).
Defined.

Lemma exit_never_suppresses_witness :
  (__exit__ napalm_ns StubDriver (Some boom) (start connected)).2 = Raise boom
  ∧ ∃ x, (__exit__ napalm_ns FlakyDriver (Some boom) (start connected)).2
         = Raise x
         ∧ exc_type x = TransportError
         ∧ exc_args x = ["link down"].
Proof.
  split.
  - exact (proj1 (proj2 (exit_never_suppresses napalm_ns StubDriver boom
                           (start connected))) _ eq_refl).
  - exact (proj1 (proj2 (proj2 (exit_never_suppresses napalm_ns FlakyDriver
                                  boom (start connected)))) _ _ eq_refl).
Defined.

Lemma close_failure_after_clean_block_witness :
  open FlakyDriver (session (start fresh)) = (connected, Return tt)
  ∧ stub_open connected = (connected, Return tt)
  ∧ close FlakyDriver connected = (connected, Raise link_down)
  ∧ with_statement napalm_ns FlakyDriver stub_open (start fresh)
    = (after_scope connected, Raise link_down).
Proof.
  split_and!; [reflexivity|reflexivity|reflexivity|].
  exact (close_failure_after_clean_block napalm_ns FlakyDriver stub_open
           (start fresh) _ _ _ _ eq_refl eq_refl eq_refl).
Defined.

Lemma exceptions_come_from_driver_or_block_witness :
  with_statement napalm_ns StubDriver (failing boom) (start fresh)
  = ({| session :=
          {| state := Closed; running := "hostname r1"; candidate := None |};
        log := [Called "open"; Ran_block; Called "close"; Printed epilog] |},
     Raise boom)
  ∧ ((∃ s1, open StubDriver (session (start fresh)) = (s1, Raise boom))
     ∨ (∃ s1 s2 s3, open StubDriver (session (start fresh)) = (s1, Return tt)
                    ∧ failing boom s1 = (s2, Raise boom)
                    ∧ close StubDriver s2 = (s3, Return tt))
     ∨ (∃ s1 s2 rb s3 c,
          open StubDriver (session (start fresh)) = (s1, Return tt)
          ∧ failing boom s1 = (s2, rb)
          ∧ close StubDriver s2 = (s3, Raise c)
          ∧ exc_type boom = exc_type c
          ∧ exc_args boom = exc_args c)).
Proof.
  split; [reflexivity|].
  exact (exceptions_come_from_driver_or_block napalm_ns StubDriver
           (failing boom) (start fresh) _ boom eq_refl).
Defined.

Lemma scope_on_driver_without_open_witness :
  open (with_close stub_close BaseNetworkDriver) = open BaseNetworkDriver
  ∧ "NotImplementedError" ∈ builtins_keys napalm_ns
  ∧ with_statement napalm_ns (with_close stub_close BaseNetworkDriver)
      stub_open (start fresh)
    = ({| session := fresh; log := [Called "open"] |},
       Raise (instantiate NotImplementedError)).
Proof.
  assert (Hin : "NotImplementedError" ∈ builtins_keys napalm_ns)
    by (apply (bool_decide_unpack _); vm_compute; exact I).
  split_and!; [reflexivity|exact Hin|].
  exact (scope_on_driver_without_open napalm_ns
           (with_close stub_close BaseNetworkDriver) stub_open (start fresh)
           eq_refl Hin).
Defined.

Lemma more_names_fewer_diagnostics_witness :
  exceptions_dir (Namespaces [] ["ValueError"]) ⊆ exceptions_dir napalm_ns
  ∧ builtins_keys (Namespaces [] ["ValueError"]) ⊆ builtins_keys napalm_ns
  ∧ (not_caught napalm_ns TransportError = true →
     not_caught (Namespaces [] ["ValueError"]) TransportError = true).
Proof.
  assert (He : exceptions_dir (Namespaces [] ["ValueError"])
               ⊆ exceptions_dir napalm_ns)
    by (apply (bool_decide_unpack _); vm_compute; exact I).
  assert (Hb : builtins_keys (Namespaces [] ["ValueError"])
               ⊆ builtins_keys napalm_ns)
    by (apply (bool_decide_unpack _); vm_compute; exact I).
  split_and!; [exact He|exact Hb|].
  exact (proj1 (more_names_fewer_diagnostics (Namespaces [] ["ValueError"])
                  napalm_ns TransportError He Hb)).
Defined.

Lemma scope_on_driver_without_close_witness :
  close (with_open stub_open BaseNetworkDriver) = close BaseNetworkDriver
  ∧ open (with_open stub_open BaseNetworkDriver) (session (start fresh))
    = (connected, Return tt)
  ∧ ∃ x, with_statement napalm_ns (with_open stub_open BaseNetworkDriver)
           (stub_load_merge_candidate None (Some "interface X up"))
           (start fresh)
         = (after_scope {| state := CandidatePending;
                           running := "hostname r1";
                           candidate := Some "interface X up" |}, Raise x)
         ∧ exc_type x = NotImplementedError
         ∧ exc_args x = [].
Proof.
  split_and!; [reflexivity|reflexivity|].
  exact (scope_on_driver_without_close napalm_ns
           (with_open stub_open BaseNetworkDriver)
           (stub_load_merge_candidate None (Some "interface X up"))
           (start fresh) _ _ _ eq_refl eq_refl eq_refl).
Defined.

End ScopeProps.
